(** * Capital Budgeting Excel Processor: the Sheet Index of [main.py]

    A shallow embedding of the three read endpoints of [src/main.py]
    ([list_tables], [get_table_details], [calculate_row_sum]) over a model
    of the pandas frame held in the global [excel_data], followed by the
    properties the specification states about them.

    Conventions.
    - A Python [str] is a [string]; its characters stand for the code
      points below 256.
    - A Python [float] is a primitive IEEE-754 binary64 [float]; a Python
      [int] is a [Z].
    - A call that may raise is a value of [result]: [Ok v] or [Raise e].
    - The builtins [float(str)] and [str(float)] are not code of the
      repository; they are section variables. *)

From Stdlib Require Import ZArith List String Ascii Bool Lia.
From Stdlib Require Import PrimFloat SpecFloat FloatOps DecimalString.
Import ListNotations.

Local Open Scope string_scope.
Local Open Scope Z_scope.

(** ** Exceptions *)

Inductive exn : Type :=
| ValueError
| TypeError
| OverflowError
| IndexError
| KeyError
| HTTPException (status_code : Z) (detail : string).

Inductive result (A : Type) : Type :=
| Ok (v : A)
| Raise (e : exn).

Arguments Ok {A} v.
Arguments Raise {A} e.

Definition bind {A B : Type} (r : result A) (k : A -> result B) : result B :=
  match r with
  | Ok v => k v
  | Raise e => Raise e
  end.

Notation "x <- r ;; k" := (bind r (fun x => k))
  (at level 61, r at next level, right associativity).

(** ** Cells and frames *)

(** The values a cell of the frame holds, after the data model of the
    specification (a number, a string, the absent marker): [None], an
    integer, a float (which may be NaN) or a string. Booleans and dates
    of a sheet are left out. *)
Inductive cell : Type :=
| CNone
| CInt (z : Z)
| CFloat (f : float)
| CStr (s : string).

(** [excel_data]: [columns] is [len(excel_data.columns)], [rows] the rows
    in index order (the index is the default 0, 1, 2, ...). *)
Record DataFrame : Type := mkDataFrame {
  columns : nat;
  rows : list (list cell)
}.

(** ** Python primitives on strings *)

(** [str.isspace] on the code points below 256: tab to carriage return,
    the four separators 28..31, space, NEL and the no-break space. *)
Definition is_space (c : ascii) : bool :=
  let n := nat_of_ascii c in
  ((9 <=? n) && (n <=? 13) || (28 <=? n) && (n <=? 32)
   || (n =? 133) || (n =? 160))%nat.

Fixpoint lstrip_by (p : ascii -> bool) (s : string) : string :=
  match s with
  | EmptyString => EmptyString
  | String c s' => if p c then lstrip_by p s' else s
  end.

Fixpoint rstrip_by (p : ascii -> bool) (s : string) : string :=
  match s with
  | EmptyString => EmptyString
  | String c s' =>
      match rstrip_by p s' with
      | EmptyString => if p c then EmptyString else String c EmptyString
      | String d r => String c (String d r)
      end
  end.

(** [s.strip()] *)
Definition strip (s : string) : string :=
  rstrip_by is_space (lstrip_by is_space s).

(** [s.strip('%')] *)
Definition strip_percent (s : string) : string :=
  rstrip_by (Ascii.eqb "%") (lstrip_by (Ascii.eqb "%") s).

(** ['%' in s] *)
Fixpoint has_percent (s : string) : bool :=
  match s with
  | EmptyString => false
  | String c s' => Ascii.eqb c "%" || has_percent s'
  end.

(** [str(z)] for an integer. *)
Definition str_of_int (z : Z) : string :=
  NilZero.string_of_int (Z.to_int z).

(** [float(z)] for an integer: the nearest double, ties to even;
    [OverflowError] when the integer is too large for a double. *)
Definition Z2float (z : Z) : float :=
  SF2Prim (binary_normalize prec emax z 0 false).

Definition is_infinite (f : float) : bool :=
  (PrimFloat.eqb f infinity || PrimFloat.eqb f neg_infinity)%bool.

Definition float_of_int (z : Z) : result float :=
  let f := Z2float z in
  if is_infinite f then Raise OverflowError else Ok f.

(** ** Python primitives on cells *)

(** [bool(v)]: what [if v] and [v and ...] test. NaN is true. *)
Definition truthy (v : cell) : bool :=
  match v with
  | CNone => false
  | CInt z => negb (z =? 0)
  | CFloat f => negb (PrimFloat.eqb f 0)
  | CStr s => negb (s =? EmptyString)%string
  end.

(** [pd.isna(v)] *)
Definition isna (v : cell) : bool :=
  match v with
  | CNone => true
  | CFloat f => PrimFloat.is_nan f
  | _ => false
  end.

(** [row[0]] on a row of [iterrows()]: the label must exist. *)
Definition getitem0 (row : list cell) : result cell :=
  match row with
  | [] => Raise KeyError
  | v :: _ => Ok v
  end.

(** [df.iloc[r, c]] *)
Definition iloc (df : DataFrame) (r c : nat) : result cell :=
  if (columns df <=? c)%nat then Raise IndexError
  else match nth_error (rows df) r with
       | None => Raise IndexError
       | Some row =>
           match nth_error row c with
           | None => Raise IndexError
           | Some v => Ok v
           end
       end.

(** The eight table headers, the list literal of [list_tables] and
    [get_table_details]. *)
Definition headers : list string :=
  [ "INITIAL INVESTMENT";
    "CASHFLOW DETAILS";
    "DISCOUNT RATE";
    "WORKING CAPITAL";
    "GROWTH RATES";
    "SALVAGE VALUE";
    "OPERATING CASHFLOWS";
    "BOOK VALUE & DEPRECIATION" ].

(** [s in l] and [s not in l] on lists of strings. *)
Definition str_in (s : string) (l : list string) : bool :=
  existsb (String.eqb s) l.

Definition is_header (s : string) : bool := str_in s headers.

(** The response bodies. *)
Record TableDetails : Type := mkTableDetails {
  td_table_name : string;
  row_names : list string
}.

Record RowSum : Type := mkRowSum {
  rs_table_name : string;
  rs_row_name : string;
  sum : float
}.

Definition not_loaded {A : Type} : result A :=
  Raise (HTTPException 500 "Excel data not loaded").

Section SheetIndex.

(** [float(s)] on a string: [None] is [ValueError]. *)
Variable float_of_str : string -> option float.

(** [str(f)] on a float. *)
Variable str_of_float : float -> string.

(** [str(v)] *)
Definition py_str (v : cell) : string :=
  match v with
  | CNone => "None"
  | CInt z => str_of_int z
  | CFloat f => str_of_float f
  | CStr s => s
  end.

(** [float(v)] *)
Definition py_float (v : cell) : result float :=
  match v with
  | CNone => Raise TypeError
  | CInt z => float_of_int z
  | CFloat f => Ok f
  | CStr s =>
      match float_of_str s with
      | Some f => Ok f
      | None => Raise ValueError
      end
  end.

(** *** [list_tables] *)

(** [row[0] and isinstance(row[0], str) and row[0].strip() in [...]] *)
Definition is_table_row (v : cell) : bool :=
  truthy v &&
  match v with
  | CStr s => is_header (strip s)
  | _ => false
  end.

Fixpoint list_tables_loop (rs : list (list cell)) (tables : list string)
  : result (list string) :=
  match rs with
  | [] => Ok tables
  | row :: rest =>
      v <- getitem0 row ;;
      if is_table_row v
      then list_tables_loop rest (tables ++ [strip (py_str v)])
      else list_tables_loop rest tables
  end.

Definition list_tables (excel_data : option DataFrame)
  : result (list string) :=
  match excel_data with
  | None => not_loaded
  | Some df => list_tables_loop (rows df) []
  end.

(** *** [get_table_details] *)

(** [row[0] and isinstance(row[0], str) and row[0].strip() == table_name] *)
Definition is_header_of (table_name : string) (v : cell) : bool :=
  truthy v &&
  match v with
  | CStr s => (strip s =? table_name)%string
  | _ => false
  end.

(** The first loop: the index of the first header row, [None] when the
    loop ends without [break]. *)
Fixpoint find_header (rs : list (list cell)) (table_name : string)
    (idx : nat) : result (option nat) :=
  match rs with
  | [] => Ok None
  | row :: rest =>
      v <- getitem0 row ;;
      if is_header_of table_name v then Ok (Some idx)
      else find_header rest table_name (S idx)
  end.

(** [row_name is None or not str(row_name).strip()] *)
Definition is_empty_name (v : cell) : bool :=
  match v with
  | CNone => true
  | _ => (strip (py_str v) =? EmptyString)%string
  end.

(** [isinstance(row_name, str) and row_name.strip() in [...]] *)
Definition is_next_table (v : cell) : bool :=
  match v with
  | CStr s => is_header (strip s)
  | _ => false
  end.

(** The [while] loop from [current_row] on; [rs] is the frame below
    [current_row], so that [rs = []] is [current_row >= len(excel_data)]. *)
Fixpoint collect_rows (df : DataFrame) (rs : list (list cell))
    (current_row : nat) (names : list string) : result (list string) :=
  match rs with
  | [] => Ok names
  | _ :: rest =>
      row_name <- iloc df current_row 0 ;;
      if is_empty_name row_name then Ok names
      else if is_next_table row_name then Ok names
      else collect_rows df rest (S current_row)
             (names ++ [strip (py_str row_name)])
  end.

(** The two [break] tests of the loop as one test. *)
Definition stops (v : cell) : bool :=
  is_empty_name v || is_next_table v.

Definition table_not_found {A : Type} (table_name : string) : result A :=
  Raise (HTTPException 404 ("Table '" ++ table_name ++ "' not found")).

Definition get_table_details (excel_data : option DataFrame)
    (table_name : string) : result TableDetails :=
  match excel_data with
  | None => not_loaded
  | Some df =>
      header_row <- find_header (rows df) table_name 0 ;;
      match header_row with
      | None => table_not_found table_name
      | Some h =>
          names <- collect_rows df (skipn (S h) (rows df)) (S h) [] ;;
          Ok (mkTableDetails table_name names)
      end
  end.

(** *** [calculate_row_sum] *)

(** [str(row[0]).strip() if row[0] else None] *)
Definition current_row_name (v : cell) : option string :=
  if truthy v then Some (strip (py_str v)) else None.

Definition name_matches (row_name : string) (v : cell) : bool :=
  match current_row_name v with
  | Some n => (n =? row_name)%string
  | None => false
  end.

(** The scan for [target_row]. *)
Fixpoint find_target (rs : list (list cell)) (row_name : string)
    (idx : nat) : result (option nat) :=
  match rs with
  | [] => Ok None
  | row :: rest =>
      v <- getitem0 row ;;
      if name_matches row_name v then Ok (Some idx)
      else find_target rest row_name (S idx)
  end.

Definition row_not_in_table {A : Type} (row_name table_name : string)
  : result A :=
  Raise (HTTPException 404
           ("Row '" ++ row_name ++ "' not found in table '"
            ++ table_name ++ "'")).

Definition row_not_in_data {A : Type} (row_name : string) : result A :=
  Raise (HTTPException 404
           ("Row '" ++ row_name ++ "' not found in Excel data")).

(** Everything before the summation: the call of [get_table_details], the
    membership test and the scan. Returns [target_row]. *)
Definition locate_row (df : DataFrame) (table_name row_name : string)
  : result nat :=
  table_details <- get_table_details (Some df) table_name ;;
  if negb (str_in row_name (row_names table_details))
  then row_not_in_table row_name table_name
  else
    target_row <- find_target (rows df) row_name 0 ;;
    match target_row with
    | None => row_not_in_data row_name
    | Some t => Ok t
    end.

(** The value of a cell as the two branches read it: [float(v.strip('%'))
    / 100] for a string with a percent sign, [float(v)] otherwise. *)
Definition cell_value (v : cell) : result float :=
  match v with
  | CStr s =>
      if has_percent s
      then
        match float_of_str (strip_percent s) with
        | Some f => Ok (f / 100)%float
        | None => Raise ValueError
        end
      else py_float v
  | _ => py_float v
  end.

(** [try: ... except (ValueError, TypeError): handler] *)
Definition except_value_type {A : Type} (r : result A) (handler : result A)
  : result A :=
  match r with
  | Raise ValueError => handler
  | Raise TypeError => handler
  | _ => r
  end.

(** The branch of [INITIAL INVESTMENT]. [sum_value = 0] is the integer 0;
    the response model declares [sum: float], so it is the float 0. *)
Definition initial_investment_sum (df : DataFrame) (target_row : nat)
  : result float :=
  except_value_type
    (value <- iloc df target_row 2 ;;
     if isna value then Ok 0%float else cell_value value)
    (Ok 0%float).

(** The body of the [for col] loop, from [sum_value] to the next
    [sum_value]; [continue] keeps the old one. *)
Definition add_column (df : DataFrame) (target_row : nat)
    (sum_value : float) (col : nat) : result float :=
  except_value_type
    (value <- iloc df target_row col ;;
     if negb (isna value)
     then (x <- cell_value value ;; Ok (sum_value + x)%float)
     else Ok sum_value)
    (Ok sum_value).

Fixpoint sum_columns (df : DataFrame) (target_row : nat)
    (cols : list nat) (sum_value : float) : result float :=
  match cols with
  | [] => Ok sum_value
  | col :: rest =>
      s <- add_column df target_row sum_value col ;;
      sum_columns df target_row rest s
  end.

Definition calculate_row_sum (excel_data : option DataFrame)
    (table_name row_name : string) : result RowSum :=
  match excel_data with
  | None => not_loaded
  | Some df =>
      target_row <- locate_row df table_name row_name ;;
      let start_col := 0%nat in
      let end_col := columns df in
      sum_value <-
        (if (table_name =? "INITIAL INVESTMENT")%string
         then initial_investment_sum df target_row
         else sum_columns df target_row
                (seq start_col (end_col - start_col)) 0%float) ;;
      Ok (mkRowSum table_name row_name sum_value)
  end.

(** ** The specification's vocabulary *)

(** Column 0 of the frame, top to bottom. *)
Definition column0 (df : DataFrame) : list cell :=
  map (hd CNone) (rows df).

(** The position of the first element that satisfies [p]. *)
Fixpoint first_index {A : Type} (p : A -> bool) (l : list A) : option nat :=
  match l with
  | [] => None
  | x :: l' => if p x then Some 0%nat else option_map S (first_index p l')
  end.

(** The longest prefix before the first element that satisfies [p]. *)
Fixpoint take_until {A : Type} (p : A -> bool) (l : list A) : list A :=
  match l with
  | [] => []
  | x :: l' => if p x then [] else x :: take_until p l'
  end.

(** The trimmed string form of a column-0 value. *)
Definition trimmed (v : cell) : string := strip (py_str v).

(** "a string that trims to one of the eight fixed header labels" *)
Definition is_label (v : cell) : bool :=
  match v with
  | CStr s => is_header (strip s)
  | _ => false
  end.

(** listTables, in the specification's words. *)
Definition table_labels (df : DataFrame) : list string :=
  map trimmed (filter is_label (column0 df)).

(** "whose trimmed column-0 string equals tableName" *)
Definition names_table (table_name : string) (v : cell) : bool :=
  match v with
  | CStr s => (strip s =? table_name)%string
  | _ => false
  end.

(** "a row's column-0 value is empty/absent": an absent marker, [None]
    or NaN as for [pd.isna], or a string with nothing but white space. *)
Definition is_blank (v : cell) : bool :=
  match v with
  | CNone => true
  | CStr s => (strip s =? EmptyString)%string
  | CInt _ => false
  | CFloat f => PrimFloat.is_nan f
  end.

(** The column-0 values at which the loop of [get_table_details] does
    stop: [None], a string with nothing but white space, a string that
    trims to a header. A number never stops it, NaN included: its text is
    not empty. *)
Definition ends_list (v : cell) : bool :=
  match v with
  | CNone => true
  | CStr s => (strip s =? EmptyString)%string || is_header (strip s)
  | CInt _ | CFloat _ => false
  end.

(** The row below a table's last row: blank, or a header label. *)
Definition is_boundary (v : cell) : bool := is_blank v || is_label v.

(** listRows, in the specification's words: [None] is
    TableNotFoundError. *)
Definition table_rows (df : DataFrame) (table_name : string)
  : option (list string) :=
  match first_index (names_table table_name) (column0 df) with
  | None => None
  | Some h =>
      Some (map trimmed (take_until is_boundary (skipn (S h) (column0 df))))
  end.

(** "whose trimmed column-0 value equals rowName", for a value that is
    present. *)
Definition trimmed_equals (row_name : string) (v : cell) : bool :=
  match v with
  | CNone => false
  | _ => (trimmed v =? row_name)%string
  end.

(** What one cell adds to a sum, in the specification's words: nothing
    for an absent cell, the parsed number over 100 for a string with a
    percent sign once stripped, the parsed number otherwise, nothing when
    the parse fails. *)
Definition contribution (v : cell) : option float :=
  match v with
  | CNone => None
  | CFloat f => if PrimFloat.is_nan f then None else Some f
  | CInt z => Some (Z2float z)
  | CStr s =>
      if has_percent s
      then option_map (fun x => (x / 100)%float)
             (float_of_str (strip_percent s))
      else float_of_str s
  end.

(** The sum of [INITIAL INVESTMENT] from the cell of column 2. *)
Definition single_cell_sum (v : cell) : float :=
  match contribution v with
  | Some x => x
  | None => 0%float
  end.

(** One step of the sum of the other tables, left to right over a row. *)
Definition add_cell (acc : float) (v : cell) : float :=
  match contribution v with
  | Some x => (acc + x)%float
  | None => acc
  end.

End SheetIndex.

(** ** Frames as the loader leaves them *)

(** [load_excel_data] reads an Excel sheet with [pd.read_excel]: a number
    of the sheet is a double, delivered as an integer when it is integral,
    so an integer cell converts back to a float; the reader turns an empty
    string into the absent marker, which [df.where(pd.notnull(df), None)]
    leaves as [None] or as NaN, depending on the column and on pandas. *)
Definition cell_ok (v : cell) : bool :=
  match v with
  | CInt z => negb (is_infinite (Z2float z))
  | CStr s => negb (s =? EmptyString)%string
  | _ => true
  end.

(** A row has one cell per column, and there is a column. *)
Definition row_ok (ncols : nat) (row : list cell) : bool :=
  (List.length row =? ncols)%nat && (1 <=? List.length row)%nat && forallb cell_ok row.

Definition loaded_frame (df : DataFrame) : bool :=
  forallb (row_ok (columns df)) (rows df).

(** ** The text of numbers *)

Fixpoint string_forallb (p : ascii -> bool) (s : string) : bool :=
  match s with
  | EmptyString => true
  | String c s' => p c && string_forallb p s'
  end.

(** The characters of [str(x)] for a number [x]: digits, signs, the point,
    the exponent mark and the letters of [inf] and [nan]. *)
Definition numeric_char (c : ascii) : bool :=
  let n := nat_of_ascii c in
  ((48 <=? n) && (n <=? 57) || (n =? 43) || (n =? 45) || (n =? 46)
   || (n =? 101) || (n =? 105) || (n =? 110) || (n =? 102) || (n =? 97))%nat.

Definition numeric_text (s : string) : bool :=
  negb (s =? EmptyString)%string && string_forallb numeric_char s.

(** ** Instances of the builtins for closed examples *)

Definition digit_of (c : ascii) : option Z :=
  let n := nat_of_ascii c in
  if ((48 <=? n) && (n <=? 57))%nat then Some (Z.of_nat (n - 48)) else None.

(** Reads [digits [. digits]]: the integer the digits spell and the number
    of digits after the point. *)
Fixpoint parse_digits (s : string) (seen_point : bool) (m : Z) (k : nat)
    (any : bool) : option (Z * nat) :=
  match s with
  | EmptyString => if any then Some (m, k) else None
  | String c s' =>
      match digit_of c with
      | Some d =>
          parse_digits s' seen_point (10 * m + d)
            (if seen_point then S k else k) true
      | None =>
          if Ascii.eqb c "." && negb seen_point
          then parse_digits s' true m k any
          else None
      end
  end.

(** [float(s)] on the plain decimals [[sign] digits [. digits]] whose
    digits spell an integer below 2^53, with at most 22 of them after the
    point: the quotient of two exact doubles is then the correctly rounded
    value. Every other string is refused, also those Python reads. *)
Definition decimal_float_of_str (s : string) : option float :=
  let t := strip s in
  let '(neg, body) :=
    match t with
    | String "-" r => (true, r)
    | String "+" r => (false, r)
    | _ => (false, t)
    end in
  match parse_digits body false 0 0 false with
  | Some (m, k) =>
      if (m <? 2 ^ 53) && (k <=? 22)%nat
      then
        let q := (Z2float m / Z2float (10 ^ Z.of_nat k))%float in
        Some (if neg then (- q)%float else q)
      else None
  | None => None
  end.

(** [str(f)] on NaN, the infinities and zero; the closed examples have no
    other float in column 0. *)
Definition special_str_of_float (f : float) : string :=
  if PrimFloat.is_nan f then "nan"
  else if PrimFloat.eqb f infinity then "inf"
  else if PrimFloat.eqb f neg_infinity then "-inf"
  else "0.0".

(** The frames of the closed examples. *)

(** The scenario of the specification: one table, one row. *)
Definition frame_cost : DataFrame :=
  mkDataFrame 3
    [ [CStr "INITIAL INVESTMENT"; CNone; CNone];
      [CStr "Cost"; CNone; CInt 100000] ].

(** Two tables; the percentage, a blank row and a repeated header. *)
Definition frame_two_tables : DataFrame :=
  mkDataFrame 4
    [ [CStr "notes"; CNone; CNone; CNone];
      [CStr " CASHFLOW DETAILS "; CNone; CNone; CNone];
      [CStr "Revenue"; CInt 100; CStr "10%"; CNone];
      [CStr " Rate "; CStr "12.5%"; CStr "n/a"; CFloat 0.5%float];
      [CNone; CNone; CNone; CNone];
      [CStr "DISCOUNT RATE"; CNone; CNone; CNone];
      [CStr "Revenue"; CInt 7; CNone; CNone];
      [CStr "CASHFLOW DETAILS"; CNone; CNone; CNone] ].

(** A numeric zero as a row label, and the same label as a string under
    the next table. *)
Definition frame_zero_label : DataFrame :=
  mkDataFrame 2
    [ [CStr "CASHFLOW DETAILS"; CNone];
      [CInt 0; CInt 5];
      [CStr "DISCOUNT RATE"; CNone];
      [CStr "0"; CInt 7] ].

(** A numeric zero as the only row label. *)
Definition frame_zero_only : DataFrame :=
  mkDataFrame 2
    [ [CStr "CASHFLOW DETAILS"; CNone];
      [CInt 0; CInt 5] ].

(** A sheet of two columns. *)
Definition frame_narrow : DataFrame :=
  mkDataFrame 2
    [ [CStr "INITIAL INVESTMENT"; CNone];
      [CStr "Cost"; CInt 100000] ].

(** A blank row between two rows of a table, with NaN as the absent
    marker. *)
Definition frame_blank_nan : DataFrame :=
  mkDataFrame 2
    [ [CStr "CASHFLOW DETAILS"; CFloat nan];
      [CStr "Revenue"; CFloat 100%float];
      [CFloat nan; CFloat nan];
      [CStr "Tax"; CFloat 5%float] ].

(** A row of text only. *)
Definition frame_notes : DataFrame :=
  mkDataFrame 3
    [ [CStr "GROWTH RATES"; CNone; CNone];
      [CStr "Comment"; CStr "n/a"; CNone] ].

(** * Properties *)

(** ** Stripping and the text of numbers *)

Lemma rstrip_by_none (p : ascii -> bool) (s : string) :
  string_forallb (fun c => negb (p c)) s = true -> rstrip_by p s = s.
Proof.
  induction s as [|c s IH]; simpl; intros H; [reflexivity|].
  apply andb_true_iff in H as [Hc Hs].
  rewrite (IH Hs).
  destruct s; [|reflexivity].
  apply negb_true_iff in Hc. now rewrite Hc.
Qed.

Lemma lstrip_by_none (p : ascii -> bool) (s : string) :
  string_forallb (fun c => negb (p c)) s = true -> lstrip_by p s = s.
Proof.
  destruct s as [|c s]; simpl; intros H; [reflexivity|].
  apply andb_true_iff in H as [Hc _].
  apply negb_true_iff in Hc. now rewrite Hc.
Qed.

Lemma string_forallb_impl (p q : ascii -> bool) (s : string) :
  (forall c, p c = true -> q c = true) ->
  string_forallb p s = true -> string_forallb q s = true.
Proof.
  intros Hpq. induction s as [|c s IH]; simpl; [reflexivity|].
  intros H. apply andb_true_iff in H as [Hc Hs].
  now rewrite (Hpq c Hc), (IH Hs).
Qed.

Lemma numeric_char_not_space (c : ascii) :
  numeric_char c = true -> negb (is_space c) = true.
Proof.
  destruct c as [[] [] [] [] [] [] [] []]; vm_compute; congruence.
Qed.

Lemma strip_numeric (s : string) : numeric_text s = true -> strip s = s.
Proof.
  unfold numeric_text, strip. intros H.
  apply andb_true_iff in H as [_ H].
  apply (string_forallb_impl _ _ _ numeric_char_not_space) in H.
  now rewrite (lstrip_by_none _ _ H), (rstrip_by_none _ _ H).
Qed.

Lemma numeric_not_header (s : string) :
  numeric_text s = true -> is_header s = false.
Proof.
  intros H. destruct (is_header s) eqn:E; [|reflexivity].
  unfold is_header, str_in in E.
  apply existsb_exists in E as [h [Hin Heq]].
  apply String.eqb_eq in Heq. subst h.
  simpl in Hin.
  repeat (destruct Hin as [<-|Hin]; [vm_compute in H; discriminate|]).
  contradiction.
Qed.

Lemma numeric_not_blank (s : string) :
  numeric_text s = true -> (strip s =? EmptyString)%string = false.
Proof.
  intros H. rewrite (strip_numeric _ H).
  unfold numeric_text in H. apply andb_true_iff in H as [H _].
  now apply negb_true_iff in H.
Qed.

Lemma digits_numeric (u : Decimal.uint) :
  string_forallb numeric_char (NilEmpty.string_of_uint u) = true.
Proof.
  induction u; simpl; try reflexivity; exact IHu.
Qed.

Lemma uint_numeric (u : Decimal.uint) :
  numeric_text (NilZero.string_of_uint u) = true.
Proof.
  unfold numeric_text.
  destruct u; try reflexivity; simpl; apply digits_numeric.
Qed.

Lemma str_of_int_numeric (z : Z) : numeric_text (str_of_int z) = true.
Proof.
  unfold str_of_int. destruct (Z.to_int z) as [u|u]; simpl.
  - apply uint_numeric.
  - pose proof (uint_numeric u) as H. unfold numeric_text in *.
    apply andb_true_iff in H as [_ H]. simpl. exact H.
Qed.

(** ** First positions and prefixes *)

Lemma first_index_some {A : Type} (p : A -> bool) (l : list A) (i : nat) :
  first_index p l = Some i <->
  (exists x, nth_error l i = Some x /\ p x = true) /\
  (forall j y, (j < i)%nat -> nth_error l j = Some y -> p y = false).
Proof.
  revert i. induction l as [|a l IH]; intros i; simpl.
  - split; [discriminate|]. intros [[x [H _]] _]. now destruct i.
  - destruct (p a) eqn:Ha.
    + split.
      * intros [= <-]. split; [now exists a|]. intros j y Hj. lia.
      * intros [[x [Hx Hp]] Hlt]. destruct i as [|i]; [reflexivity|].
        specialize (Hlt 0%nat a ltac:(lia) eq_refl). congruence.
    + destruct (first_index p l) as [k|] eqn:Ek; simpl.
      * split.
        -- intros [= <-]. destruct (proj1 (IH k) eq_refl) as [Hx Hlt].
           split; [exact Hx|]. intros [|j] y Hj Hy; simpl in Hy.
           ++ congruence.
           ++ apply (Hlt j y); [lia|exact Hy].
        -- intros [[x [Hx Hp]] Hlt]. destruct i as [|i]; simpl in Hx.
           ++ congruence.
           ++ f_equal. assert (E : Some k = Some i); [|congruence].
              apply IH. split; [now exists x|].
              intros j y Hj Hy. apply (Hlt (S j) y); [lia|exact Hy].
      * split; [discriminate|].
        intros [[x [Hx Hp]] Hlt]. destruct i as [|i]; simpl in Hx.
        -- congruence.
        -- assert (E : None = Some i); [|discriminate].
           apply IH. split; [now exists x|].
           intros j y Hj Hy. apply (Hlt (S j) y); [lia|exact Hy].
Qed.

Lemma first_index_none {A : Type} (p : A -> bool) (l : list A) :
  first_index p l = None <-> (forall x, In x l -> p x = false).
Proof.
  induction l as [|a l IH]; simpl.
  - split; [intros _ x []|reflexivity].
  - destruct (p a) eqn:Ha.
    + split; [discriminate|]. intros H. specialize (H a (or_introl eq_refl)).
      congruence.
    + destruct (first_index p l) as [k|]; simpl.
      * split; [discriminate|]. intros H.
        assert (E : Some k = None); [|discriminate].
        apply IH. intros x Hx. apply H. now right.
      * split; [|reflexivity]. intros _ x [<-|Hx]; [exact Ha|].
        now apply (proj1 IH eq_refl).
Qed.

Lemma first_index_ext {A : Type} (p q : A -> bool) (l : list A) :
  (forall x, In x l -> p x = q x) -> first_index p l = first_index q l.
Proof.
  induction l as [|a l IH]; simpl; intros H; [reflexivity|].
  rewrite (H a (or_introl eq_refl)), IH; [reflexivity|].
  intros x Hx. apply H. now right.
Qed.

Lemma take_until_ext {A : Type} (p q : A -> bool) (l : list A) :
  (forall x, In x l -> p x = q x) -> take_until p l = take_until q l.
Proof.
  induction l as [|a l IH]; simpl; intros H; [reflexivity|].
  rewrite (H a (or_introl eq_refl)), IH; [reflexivity|].
  intros x Hx. apply H. now right.
Qed.

Lemma take_until_incl {A : Type} (p : A -> bool) (l : list A) (x : A) :
  In x (take_until p l) -> In x l /\ p x = false.
Proof.
  induction l as [|a l IH]; simpl; [intros []|].
  destruct (p a) eqn:Ha; [intros []|].
  intros [<-|Hx]; [now split; [left|]|].
  destruct (IH Hx). split; [now right|assumption].
Qed.

Lemma skipn_head {A : Type} (k : nat) (l : list A) (x : A) (rest : list A) :
  skipn k l = x :: rest -> nth_error l k = Some x /\ skipn (S k) l = rest.
Proof.
  revert l. induction k as [|k IH]; intros l H.
  - simpl in H. subst l. now split.
  - destruct l as [|a l]; [discriminate|]. simpl in H.
    destruct (IH l H) as [H1 H2]. split; [exact H1|].
    now rewrite skipn_cons.
Qed.

(** ** The loops of the endpoints *)

Section Properties.

Variable float_of_str : string -> option float.
Variable str_of_float : float -> string.

(** [str(f)] is the text of a number: never blank, never a header. *)
Hypothesis float_text : forall f, numeric_text (str_of_float f) = true.

Lemma loaded_row (df : DataFrame) (row : list cell) :
  loaded_frame df = true -> In row (rows df) ->
  List.length row = columns df /\ (1 <= List.length row)%nat /\
  forallb cell_ok row = true.
Proof.
  unfold loaded_frame. intros H Hin.
  pose proof (proj1 (forallb_forall _ _) H row Hin) as Hr.
  unfold row_ok in Hr.
  apply andb_true_iff in Hr as [Hr Hc].
  apply andb_true_iff in Hr as [Hl H1].
  apply Nat.eqb_eq in Hl. apply Nat.leb_le in H1. auto.
Qed.

Lemma loaded_getitem0 (df : DataFrame) (row : list cell) :
  loaded_frame df = true -> In row (rows df) ->
  getitem0 row = Ok (hd CNone row) /\ cell_ok (hd CNone row) = true.
Proof.
  intros H Hin. destruct (loaded_row df row H Hin) as (_ & H1 & Hc).
  destruct row as [|v tl]; simpl in *; [lia|].
  apply andb_true_iff in Hc as [Hv _]. now split.
Qed.

Lemma is_table_row_label (v : cell) : is_table_row v = is_label v.
Proof.
  unfold is_table_row, is_label.
  destruct v as [|z|f|s]; try reflexivity; try apply andb_false_r.
  destruct s; reflexivity.
Qed.

Lemma list_tables_loop_run (rs : list (list cell)) (tables : list string) :
  (forall row, In row rs -> getitem0 row = Ok (hd CNone row)) ->
  list_tables_loop str_of_float rs tables =
  Ok (tables ++ map (trimmed str_of_float)
                  (filter is_label (map (hd CNone) rs)))%list.
Proof.
  revert tables. induction rs as [|row rs IH]; intros tables H; simpl.
  - now rewrite app_nil_r.
  - rewrite (H row (or_introl eq_refl)). simpl.
    rewrite is_table_row_label.
    destruct (is_label (hd CNone row)); simpl.
    + rewrite IH by (intros r Hr; apply H; now right).
      now rewrite <- app_assoc.
    + apply IH. intros r Hr. apply H. now right.
Qed.

Lemma is_header_of_names (table_name : string) (v : cell) :
  cell_ok v = true -> is_header_of table_name v = names_table table_name v.
Proof.
  unfold is_header_of, names_table.
  destruct v as [|z|f|s]; try reflexivity;
    try (intros _; apply andb_false_r).
  simpl. now intros ->.
Qed.

Lemma find_header_run (rs : list (list cell)) (table_name : string)
    (idx : nat) :
  (forall row, In row rs ->
     getitem0 row = Ok (hd CNone row) /\ cell_ok (hd CNone row) = true) ->
  find_header rs table_name idx =
  Ok (option_map (Nat.add idx)
        (first_index (names_table table_name) (map (hd CNone) rs))).
Proof.
  revert idx. induction rs as [|row rs IH]; intros idx H; simpl.
  - reflexivity.
  - destruct (H row (or_introl eq_refl)) as [Hg Hc]. rewrite Hg. simpl.
    rewrite (is_header_of_names _ _ Hc).
    destruct (names_table table_name (hd CNone row)); simpl.
    + now rewrite Nat.add_0_r.
    + rewrite IH by (intros r Hr; apply H; now right).
      destruct (first_index _ _); simpl; [|reflexivity].
      do 2 f_equal. lia.
Qed.

Lemma find_target_run (rs : list (list cell)) (row_name : string)
    (idx : nat) :
  (forall row, In row rs -> getitem0 row = Ok (hd CNone row)) ->
  find_target str_of_float rs row_name idx =
  Ok (option_map (Nat.add idx)
        (first_index (name_matches str_of_float row_name)
           (map (hd CNone) rs))).
Proof.
  revert idx. induction rs as [|row rs IH]; intros idx H; simpl.
  - reflexivity.
  - rewrite (H row (or_introl eq_refl)). simpl.
    destruct (name_matches str_of_float row_name (hd CNone row)); simpl.
    + now rewrite Nat.add_0_r.
    + rewrite IH by (intros r Hr; apply H; now right).
      destruct (first_index _ _); simpl; [|reflexivity].
      do 2 f_equal. lia.
Qed.

Lemma loaded_iloc0 (df : DataFrame) (k : nat) (row : list cell) :
  loaded_frame df = true -> nth_error (rows df) k = Some row ->
  iloc df k 0 = Ok (hd CNone row).
Proof.
  intros H Hk. pose proof (nth_error_In _ _ Hk) as Hin.
  destruct (loaded_row df row H Hin) as (Hl & H1 & _).
  unfold iloc. rewrite Hk.
  destruct (Nat.leb_spec (columns df) 0); [lia|].
  destruct row; simpl in *; [lia|reflexivity].
Qed.

Lemma collect_rows_run (df : DataFrame) :
  loaded_frame df = true ->
  forall rest k names,
    skipn k (rows df) = rest ->
    collect_rows str_of_float df rest k names =
    Ok (names ++ map (trimmed str_of_float)
                   (take_until (stops str_of_float) (map (hd CNone) rest)))%list.
Proof.
  intros H rest. induction rest as [|row rest IH]; intros k names Hk; simpl.
  - now rewrite app_nil_r.
  - destruct (skipn_head _ _ _ _ Hk) as [Hrow Hrest].
    rewrite (loaded_iloc0 df k row H Hrow). simpl.
    unfold stops at 1.
    destruct (is_empty_name str_of_float (hd CNone row)); simpl.
    + now rewrite app_nil_r.
    + destruct (is_next_table (hd CNone row)); simpl.
      * now rewrite app_nil_r.
      * rewrite (IH (S k) _ Hrest). now rewrite <- app_assoc.
Qed.

Lemma get_table_details_run (df : DataFrame) (table_name : string) :
  loaded_frame df = true ->
  get_table_details str_of_float (Some df) table_name =
  match first_index (names_table table_name) (column0 df) with
  | None => table_not_found table_name
  | Some h =>
      Ok (mkTableDetails table_name
            (map (trimmed str_of_float)
               (take_until (stops str_of_float) (skipn (S h) (column0 df)))))
  end.
Proof.
  intros H. unfold get_table_details, column0.
  rewrite find_header_run
    by (intros row Hin; exact (loaded_getitem0 df row H Hin)).
  destruct (first_index _ _) as [h|]; cbn [option_map bind Nat.add];
    [|reflexivity].
  rewrite (collect_rows_run df H _ (S h) [] eq_refl).
  cbn [bind app]. now rewrite <- skipn_map.
Qed.

Lemma list_tables_run (df : DataFrame) :
  loaded_frame df = true ->
  list_tables str_of_float (Some df) = Ok (table_labels str_of_float df).
Proof.
  intros H. unfold list_tables, table_labels, column0.
  rewrite list_tables_loop_run; [reflexivity|].
  intros row Hin. exact (proj1 (loaded_getitem0 df row H Hin)).
Qed.

Lemma stops_ends_list (v : cell) : stops str_of_float v = ends_list v.
Proof.
  unfold stops, ends_list.
  destruct v as [|z|f|s]; simpl; try reflexivity.
  - now rewrite (numeric_not_blank _ (str_of_int_numeric z)).
  - now rewrite (numeric_not_blank _ (float_text f)).
Qed.

Lemma ends_list_boundary (v : cell) :
  (forall f, v = CFloat f -> PrimFloat.is_nan f = false) ->
  ends_list v = is_boundary v.
Proof.
  unfold ends_list, is_boundary, is_blank, is_label.
  destruct v as [|z|f|s]; intros H; try reflexivity.
  now rewrite (H f eq_refl).
Qed.

Lemma str_in_In (s : string) (l : list string) :
  str_in s l = true <-> In s l.
Proof.
  unfold str_in. rewrite existsb_exists. split.
  - intros [x [Hin Heq]]. apply String.eqb_eq in Heq. now subst.
  - intros H. exists s. split; [exact H|apply String.eqb_refl].
Qed.

Lemma not_header_In (s : string) :
  is_header s = false <-> ~ In s headers.
Proof.
  unfold is_header. rewrite <- str_in_In.
  destruct (str_in s headers); split; congruence.
Qed.

(** A value the loop keeps has a name that is neither empty nor a
    header. *)
Lemma kept_name (v : cell) :
  stops str_of_float v = false ->
  trimmed str_of_float v <> EmptyString /\
  is_header (trimmed str_of_float v) = false.
Proof.
  unfold stops. intros H. apply orb_false_iff in H as [He Hn].
  unfold trimmed. split.
  - destruct v as [|z|f|s]; simpl in He; [discriminate| | |];
      now apply String.eqb_neq in He.
  - destruct v as [|z|f|s]; simpl in *.
    + discriminate.
    + rewrite (strip_numeric _ (str_of_int_numeric z)).
      apply numeric_not_header, str_of_int_numeric.
    + rewrite (strip_numeric _ (float_text f)).
      apply numeric_not_header, float_text.
    + exact Hn.
Qed.

(** What a successful [locate_row] went through. *)
Lemma locate_row_inv (df : DataFrame) (table_name row_name : string)
    (i : nat) :
  loaded_frame df = true ->
  locate_row str_of_float df table_name row_name = Ok i ->
  (exists td,
     get_table_details str_of_float (Some df) table_name = Ok td /\
     In row_name (row_names td)) /\
  first_index (name_matches str_of_float row_name) (column0 df) = Some i.
Proof.
  intros H. unfold locate_row.
  destruct (get_table_details str_of_float (Some df) table_name)
    as [td|e] eqn:Etd; cbn [bind]; [|discriminate].
  destruct (str_in row_name (row_names td)) eqn:Ein; cbn [negb];
    [|discriminate].
  rewrite find_target_run
    by (intros row Hin; exact (proj1 (loaded_getitem0 df row H Hin))).
  cbn [bind]. fold (column0 df).
  destruct (first_index _ _) as [k|]; cbn [option_map Nat.add];
    [|discriminate].
  intros [= <-]. split; [|reflexivity].
  exists td. split; [reflexivity|]. now apply str_in_In.
Qed.

Lemma column0_row (df : DataFrame) (i : nat) (v : cell) :
  nth_error (column0 df) i = Some v ->
  exists row, nth_error (rows df) i = Some row /\ hd CNone row = v.
Proof.
  unfold column0. rewrite nth_error_map.
  destruct (nth_error (rows df) i) as [row|]; simpl; [|discriminate].
  intros [= <-]. now exists row.
Qed.

(** ** listTables and listRows *)

(** C5. On a loaded frame [list_tables] returns, in row order and with
    repeated headers kept, the trimmed column-0 values of exactly those
    rows whose column-0 value is a string that trims to one of the eight
    header labels. *)
Theorem list_tables_returns_labels (df : DataFrame) :
  loaded_frame df = true ->
  list_tables str_of_float (Some df) =
  Ok (map (trimmed str_of_float) (filter is_label (column0 df))).
Proof.
  intros H. now rewrite (list_tables_run df H).
Qed.

(** C7. Whenever [get_table_details] succeeds on a loaded frame, no row
    name it returns is the empty string or one of the eight header
    labels. *)
Theorem row_names_not_headers (df : DataFrame) (table_name : string)
    (td : TableDetails) :
  loaded_frame df = true ->
  get_table_details str_of_float (Some df) table_name = Ok td ->
  Forall (fun n => n <> EmptyString /\ ~ In n headers) (row_names td).
Proof.
  intros H. rewrite (get_table_details_run df table_name H).
  destruct (first_index _ _) as [h|]; [|discriminate].
  intros [= <-]. simpl. apply Forall_forall. intros n Hn.
  apply in_map_iff in Hn as [v [<- Hv]].
  apply take_until_incl in Hv as [_ Hv].
  destruct (kept_name v Hv) as [Hne Hh].
  split; [exact Hne|]. now apply not_header_In.
Qed.

(** C8. On a loaded frame every name [list_tables] returns is a table
    [get_table_details] finds: the call succeeds, so it does not raise
    [Table '<name>' not found]. *)
Theorem listed_tables_are_found (df : DataFrame) (tables : list string)
    (table_name : string) :
  loaded_frame df = true ->
  list_tables str_of_float (Some df) = Ok tables ->
  In table_name tables ->
  exists td,
    get_table_details str_of_float (Some df) table_name = Ok td /\
    td_table_name td = table_name.
Proof.
  intros H. rewrite (list_tables_run df H). intros [= <-] Hin.
  unfold table_labels in Hin.
  apply in_map_iff in Hin as [v [Hv Hin]].
  apply filter_In in Hin as [Hin Hl].
  rewrite (get_table_details_run df table_name H).
  destruct (first_index (names_table table_name) (column0 df)) as [h|] eqn:E.
  - eexists. split; reflexivity.
  - exfalso. pose proof (proj1 (first_index_none _ _) E v Hin) as Hf.
    destruct v as [|z|f|s]; try discriminate.
    unfold trimmed in Hv. simpl in Hv, Hf.
    apply String.eqb_neq in Hf. contradiction.
Qed.

(** ** rowSum: the checks *)

(** C6. [calculate_row_sum] first calls [get_table_details] and fails as
    it fails, with [Table '<name>' not found] when no header matches;
    next, when the row name is not among the returned names, it fails with
    [Row '<name>' not found in table '<name>'], whatever the scan would
    find; only then comes the scan, whose failure is
    [Row '<name>' not found in Excel data]. *)
Theorem row_sum_check_order (df : DataFrame) (table_name row_name : string) :
  loaded_frame df = true ->
  (forall e,
     get_table_details str_of_float (Some df) table_name = Raise e ->
     calculate_row_sum float_of_str str_of_float (Some df)
       table_name row_name = Raise e)
  /\
  (first_index (names_table table_name) (column0 df) = None ->
   calculate_row_sum float_of_str str_of_float (Some df)
     table_name row_name =
   Raise (HTTPException 404 ("Table '" ++ table_name ++ "' not found")))
  /\
  (forall td,
     get_table_details str_of_float (Some df) table_name = Ok td ->
     ~ In row_name (row_names td) ->
     calculate_row_sum float_of_str str_of_float (Some df)
       table_name row_name =
     Raise (HTTPException 404
              ("Row '" ++ row_name ++ "' not found in table '"
               ++ table_name ++ "'")))
  /\
  (forall td,
     get_table_details str_of_float (Some df) table_name = Ok td ->
     In row_name (row_names td) ->
     first_index (name_matches str_of_float row_name) (column0 df) = None ->
     calculate_row_sum float_of_str str_of_float (Some df)
       table_name row_name =
     Raise (HTTPException 404
              ("Row '" ++ row_name ++ "' not found in Excel data"))).
Proof.
  intros H. unfold calculate_row_sum, locate_row.
  repeat split.
  - now intros e ->.
  - intros E. now rewrite (get_table_details_run df table_name H), E.
  - intros td -> Hn. cbn [bind].
    destruct (str_in row_name (row_names td)) eqn:Ein; [|reflexivity].
    now apply str_in_In in Ein.
  - intros td -> Hin E. cbn [bind].
    apply str_in_In in Hin. rewrite Hin. cbn [negb].
    rewrite find_target_run
      by (intros row Hr; exact (proj1 (loaded_getitem0 df row H Hr))).
    fold (column0 df). now rewrite E.
Qed.

(** The scan of [calculate_row_sum] as it runs. It goes through the whole
    frame, top to bottom, whatever the table: the row it locates is the
    first one among the rows whose column-0 value is true in Python's
    sense that has the row name as its trimmed string form, and it is the
    same row for every table name under which the row name passes the
    checks. *)
Theorem row_scan_first_in_frame (df : DataFrame)
    (table_name row_name : string) (i : nat) :
  loaded_frame df = true ->
  locate_row str_of_float df table_name row_name = Ok i ->
  (exists v,
     nth_error (column0 df) i = Some v /\
     truthy v = true /\ trimmed str_of_float v = row_name) /\
  (forall j w,
     (j < i)%nat -> nth_error (column0 df) j = Some w ->
     truthy w = true -> trimmed str_of_float w <> row_name) /\
  (forall other_table i',
     locate_row str_of_float df other_table row_name = Ok i' -> i' = i).
Proof.
  intros H Hloc.
  destruct (locate_row_inv df table_name row_name i H Hloc) as [_ Hi].
  pose proof (proj1 (first_index_some _ _ _) Hi) as [[v [Hv Hm]] Hlt].
  unfold name_matches, current_row_name in Hm.
  repeat split.
  - exists v. split; [exact Hv|].
    destruct (truthy v); [|discriminate].
    apply String.eqb_eq in Hm. now split.
  - intros j w Hj Hw Ht Heq. specialize (Hlt j w Hj Hw).
    unfold name_matches, current_row_name in Hlt. rewrite Ht in Hlt.
    apply String.eqb_neq in Hlt. contradiction.
  - intros t' i' Hloc'.
    destruct (locate_row_inv df t' row_name i' H Hloc') as [_ Hi'].
    congruence.
Qed.

(** C9. Passing the membership test does not make the scan succeed: in
    [frame_zero_only] the label of the only row is the number 0, which
    [get_table_details] lists as ["0"] and which the scan, testing the
    value itself, gives no name; the request fails with
    [Row '0' not found in Excel data]. *)
Theorem membership_does_not_locate :
  exists (df : DataFrame) (table_name row_name : string) (td : TableDetails),
    loaded_frame df = true /\
    get_table_details str_of_float (Some df) table_name = Ok td /\
    In row_name (row_names td) /\
    calculate_row_sum float_of_str str_of_float (Some df)
      table_name row_name =
    Raise (HTTPException 404
             ("Row '" ++ row_name ++ "' not found in Excel data")) /\
    (exists v,
       In v (column0 df) /\ trimmed str_of_float v = row_name /\
       truthy v = false /\ current_row_name str_of_float v = None).
Proof.
  exists frame_zero_only, "CASHFLOW DETAILS", "0",
    (mkTableDetails "CASHFLOW DETAILS" ["0"]).
  repeat split.
  - now left.
  - exists (CInt 0). repeat split. right. now left.
Qed.

(** ** rowSum: the sums *)

Lemma float_of_int_ok (z : Z) :
  cell_ok (CInt z) = true -> float_of_int z = Ok (Z2float z).
Proof.
  unfold cell_ok, float_of_int. intros H.
  apply negb_true_iff in H. now rewrite H.
Qed.

(** Reading a cell the loader can have left there: the value added, or
    one of the two errors the handlers catch. *)
Lemma cell_value_run (v : cell) :
  cell_ok v = true -> isna v = false ->
  cell_value float_of_str v =
  match contribution float_of_str v with
  | Some x => Ok x
  | None => Raise ValueError
  end.
Proof.
  intros Hok Hna. destruct v as [|z|f|s]; simpl in *.
  - discriminate.
  - apply (float_of_int_ok z Hok).
  - now rewrite Hna.
  - destruct (has_percent s).
    + now destruct (float_of_str (strip_percent s)).
    + now destruct (float_of_str s).
Qed.

Lemma isna_contribution (v : cell) :
  isna v = true -> contribution float_of_str v = None.
Proof.
  destruct v as [|z|f|s]; simpl; try discriminate; [reflexivity|].
  now intros ->.
Qed.

Lemma add_column_run (df : DataFrame) (target_row col : nat) (v : cell)
    (sum_value : float) :
  iloc df target_row col = Ok v -> cell_ok v = true ->
  add_column float_of_str df target_row sum_value col =
  Ok (add_cell float_of_str sum_value v).
Proof.
  intros Hv Hok. unfold add_column, add_cell. rewrite Hv. cbn [bind].
  destruct (isna v) eqn:Hna; cbn [negb].
  - now rewrite (isna_contribution v Hna).
  - rewrite (cell_value_run v Hok Hna).
    now destruct (contribution float_of_str v).
Qed.

Lemma sum_columns_run (df : DataFrame) (target_row : nat)
    (row : list cell) :
  nth_error (rows df) target_row = Some row ->
  forallb cell_ok row = true ->
  forall rest col sum_value,
    skipn col row = rest ->
    (col + List.length rest <= columns df)%nat ->
    sum_columns float_of_str df target_row
      (seq col (List.length rest)) sum_value =
    Ok (fold_left (add_cell float_of_str) rest sum_value).
Proof.
  intros Hrow Hok rest.
  induction rest as [|v rest IH]; intros col sum_value Hs Hlen; simpl.
  - reflexivity.
  - destruct (skipn_head _ _ _ _ Hs) as [Hv Hrest].
    simpl in Hlen.
    assert (Hi : iloc df target_row col = Ok v).
    { unfold iloc. destruct (Nat.leb_spec (columns df) col); [lia|].
      now rewrite Hrow, Hv. }
    rewrite (add_column_run df target_row col v sum_value Hi).
    + cbn [bind]. apply IH; [exact Hrest|lia].
    + apply (proj1 (forallb_forall _ _) Hok v (nth_error_In _ _ Hv)).
Qed.

(** C1. For the table [INITIAL INVESTMENT], once the checks have passed
    and the row is located, the sum comes from the cell of column 2 of
    that row alone: 0 when it is absent, the parsed number over 100 when
    it is a string with a percent sign (stripped before the parse), the
    cell as a float otherwise, and 0 when the parse fails. *)
Theorem initial_investment_reads_column_2 (df : DataFrame)
    (row_name : string) (target_row : nat) (v : cell) :
  locate_row str_of_float df "INITIAL INVESTMENT" row_name = Ok target_row ->
  iloc df target_row 2 = Ok v ->
  cell_ok v = true ->
  calculate_row_sum float_of_str str_of_float (Some df)
    "INITIAL INVESTMENT" row_name =
  Ok (mkRowSum "INITIAL INVESTMENT" row_name
        (single_cell_sum float_of_str v)).
Proof.
  intros Hloc Hv Hok. unfold calculate_row_sum. rewrite Hloc.
  cbn [bind]. rewrite String.eqb_refl.
  unfold initial_investment_sum, single_cell_sum. rewrite Hv. cbn [bind].
  destruct (isna v) eqn:Hna.
  - now rewrite (isna_contribution v Hna).
  - rewrite (cell_value_run v Hok Hna).
    now destruct (contribution float_of_str v).
Qed.

(** C2. For any other table, once the row is located, the sum is the
    accumulation from 0, left to right, over every cell of that row, from
    column 0 to the last column: an absent cell adds nothing, a string
    with a percent sign adds its parsed number over 100, any other cell
    adds its value as a float, and a cell that does not parse adds nothing
    and leaves the rest of the sum alone. A cell ["12.5%"] adds 0.125. *)
Theorem other_tables_sum_all_columns (df : DataFrame)
    (table_name row_name : string) (target_row : nat) :
  loaded_frame df = true ->
  table_name <> "INITIAL INVESTMENT" ->
  locate_row str_of_float df table_name row_name = Ok target_row ->
  (exists row,
     nth_error (rows df) target_row = Some row /\
     List.length row = columns df /\
     calculate_row_sum float_of_str str_of_float (Some df)
       table_name row_name =
     Ok (mkRowSum table_name row_name
           (fold_left (add_cell float_of_str) row 0%float))) /\
  (float_of_str "12.5" = Some 12.5%float ->
   forall acc,
     add_cell float_of_str acc (CStr "12.5%") = (acc + 0.125)%float).
Proof.
  intros H Hne Hloc. split.
  - destruct (locate_row_inv df table_name row_name target_row H Hloc)
      as [_ Hi].
    pose proof (proj1 (first_index_some _ _ _) Hi) as [[v [Hv _]] _].
    destruct (column0_row df target_row v Hv) as [row [Hrow _]].
    exists row.
    destruct (loaded_row df row H (nth_error_In _ _ Hrow)) as (Hl & _ & Hok).
    repeat split; [exact Hrow|exact Hl|].
    unfold calculate_row_sum. rewrite Hloc. cbn [bind].
    apply String.eqb_neq in Hne. rewrite Hne. rewrite Nat.sub_0_r.
    rewrite <- Hl.
    rewrite (sum_columns_run df target_row row Hrow Hok row 0%nat 0%float
               eq_refl); [reflexivity|].
    simpl. lia.
  - intros Hp acc. unfold add_cell, contribution.
    change (has_percent "12.5%") with true.
    change (strip_percent "12.5%") with "12.5".
    rewrite Hp. reflexivity.
Qed.

(** C10. With fewer than three columns the branch of
    [INITIAL INVESTMENT] cannot read column 2: once the checks have passed
    and the row is located, [iloc] raises [IndexError], which the handler
    for [ValueError] and [TypeError] lets through, so the request ends in
    an exception that is no [HTTPException]. *)
Theorem narrow_frame_index_error (df : DataFrame) (row_name : string)
    (target_row : nat) :
  (columns df < 3)%nat ->
  locate_row str_of_float df "INITIAL INVESTMENT" row_name = Ok target_row ->
  calculate_row_sum float_of_str str_of_float (Some df)
    "INITIAL INVESTMENT" row_name = Raise IndexError.
Proof.
  intros Hc Hloc. unfold calculate_row_sum. rewrite Hloc. cbn [bind].
  rewrite String.eqb_refl. unfold initial_investment_sum, iloc.
  destruct (Nat.leb_spec (columns df) 2); [reflexivity|lia].
Qed.

End Properties.

(** * Closed instances *)

Lemma special_text (f : float) :
  numeric_text (special_str_of_float f) = true.
Proof.
  unfold special_str_of_float.
  destruct (PrimFloat.is_nan f); [reflexivity|].
  destruct (PrimFloat.eqb f infinity); [reflexivity|].
  destruct (PrimFloat.eqb f neg_infinity); reflexivity.
Qed.

(** The scenario of the specification: the cost of 100000 in column 2. *)
Lemma initial_investment_reads_column_2_witness :
  calculate_row_sum decimal_float_of_str special_str_of_float
    (Some frame_cost) "INITIAL INVESTMENT" "Cost" =
  Ok (mkRowSum "INITIAL INVESTMENT" "Cost" 100000%float).
Proof.
  exact (initial_investment_reads_column_2
           decimal_float_of_str special_str_of_float
           frame_cost "Cost" 1%nat (CInt 100000)
           eq_refl eq_refl eq_refl).
Defined.

(** The row [Rate] of [frame_two_tables]: its label and ["n/a"] do not
    parse, ["12.5%"] and 0.5 are added. *)
Lemma other_tables_sum_all_columns_witness :
  (exists row,
     nth_error (rows frame_two_tables) 3 = Some row /\
     List.length row = columns frame_two_tables /\
     calculate_row_sum decimal_float_of_str special_str_of_float
       (Some frame_two_tables) "CASHFLOW DETAILS" "Rate" =
     Ok (mkRowSum "CASHFLOW DETAILS" "Rate"
           (fold_left (add_cell decimal_float_of_str) row 0%float))) /\
  (decimal_float_of_str "12.5" = Some 12.5%float ->
   forall acc,
     add_cell decimal_float_of_str acc (CStr "12.5%") = (acc + 0.125)%float).
Proof.
  apply (other_tables_sum_all_columns
           decimal_float_of_str special_str_of_float
           frame_two_tables "CASHFLOW DETAILS" "Rate" 3%nat);
    [reflexivity|discriminate|reflexivity].
Defined.

Example rate_row_sum :
  calculate_row_sum decimal_float_of_str special_str_of_float
    (Some frame_two_tables) "CASHFLOW DETAILS" "Rate" =
  Ok (mkRowSum "CASHFLOW DETAILS" "Rate" 0.625%float).
Proof. vm_compute. reflexivity. Qed.

(** C3. The scan is meant to find the first row whose trimmed column-0
    value is the row name, and misses a row labelled with the number 0,
    which [if row[0]] takes for a row without a name. On
    [frame_zero_label] the row name ["0"] is listed under both tables and
    the first row whose trimmed column-0 value is ["0"] is row 1, under
    [CASHFLOW DETAILS]; yet for that table the scan locates row 3, under
    [DISCOUNT RATE], and the sum is the 7 of that row, not the 5 of
    row 1. *)
Lemma row_scan_skips_zero_label :
  loaded_frame frame_zero_label = true /\
  table_rows special_str_of_float frame_zero_label "CASHFLOW DETAILS"
  = Some ["0"] /\
  table_rows special_str_of_float frame_zero_label "DISCOUNT RATE"
  = Some ["0"] /\
  first_index (trimmed_equals special_str_of_float "0")
    (column0 frame_zero_label) = Some 1%nat /\
  locate_row special_str_of_float frame_zero_label "CASHFLOW DETAILS" "0"
  = Ok 3%nat /\
  calculate_row_sum decimal_float_of_str special_str_of_float
    (Some frame_zero_label) "CASHFLOW DETAILS" "0"
  = Ok (mkRowSum "CASHFLOW DETAILS" "0" 7%float).
Proof. repeat split. Qed.

(** [Revenue] is a row of both tables of [frame_two_tables]; asked under
    [DISCOUNT RATE], the scan locates row 2, under [CASHFLOW DETAILS]. *)
Lemma row_scan_first_in_frame_witness :
  (exists v,
     nth_error (column0 frame_two_tables) 2 = Some v /\
     truthy v = true /\ trimmed special_str_of_float v = "Revenue") /\
  (forall j w,
     (j < 2)%nat -> nth_error (column0 frame_two_tables) j = Some w ->
     truthy w = true -> trimmed special_str_of_float w <> "Revenue") /\
  (forall other_table i',
     locate_row special_str_of_float frame_two_tables other_table "Revenue"
     = Ok i' -> i' = 2%nat).
Proof.
  exact (row_scan_first_in_frame special_str_of_float
           frame_two_tables "DISCOUNT RATE" "Revenue" 2%nat
           eq_refl eq_refl).
Defined.

Lemma list_tables_returns_labels_witness :
  list_tables special_str_of_float (Some frame_two_tables) =
  Ok ["CASHFLOW DETAILS"; "DISCOUNT RATE"; "CASHFLOW DETAILS"].
Proof.
  exact (list_tables_returns_labels special_str_of_float
           frame_two_tables eq_refl).
Defined.

Lemma row_sum_check_order_witness :
  calculate_row_sum decimal_float_of_str special_str_of_float
    (Some frame_two_tables) "CASHFLOW DETAILS" "Nope" =
  Raise (HTTPException 404
           "Row 'Nope' not found in table 'CASHFLOW DETAILS'").
Proof.
  refine (proj1 (proj2 (proj2
            (row_sum_check_order decimal_float_of_str special_str_of_float
               frame_two_tables "CASHFLOW DETAILS" "Nope" eq_refl)))
            (mkTableDetails "CASHFLOW DETAILS" ["Revenue"; "Rate"])
            eq_refl _).
  simpl. intros [H|[H|[]]]; discriminate H.
Defined.

Lemma row_names_not_headers_witness :
  Forall (fun n => n <> EmptyString /\ ~ In n headers) ["Revenue"; "Rate"].
Proof.
  exact (row_names_not_headers special_str_of_float special_text
           frame_two_tables "CASHFLOW DETAILS"
           (mkTableDetails "CASHFLOW DETAILS" ["Revenue"; "Rate"])
           eq_refl eq_refl).
Defined.

Lemma listed_tables_are_found_witness :
  exists td,
    get_table_details special_str_of_float (Some frame_two_tables)
      "DISCOUNT RATE" = Ok td /\
    td_table_name td = "DISCOUNT RATE".
Proof.
  apply (listed_tables_are_found special_str_of_float frame_two_tables
           ["CASHFLOW DETAILS"; "DISCOUNT RATE"; "CASHFLOW DETAILS"]
           "DISCOUNT RATE"); [reflexivity|reflexivity|].
  simpl. right. now left.
Defined.

Lemma narrow_frame_index_error_witness :
  calculate_row_sum decimal_float_of_str special_str_of_float
    (Some frame_narrow) "INITIAL INVESTMENT" "Cost" = Raise IndexError.
Proof.
  apply (narrow_frame_index_error decimal_float_of_str special_str_of_float
           frame_narrow "Cost" 1%nat); [simpl; lia|reflexivity].
Defined.

(** * Further properties of the endpoints *)

(** ** Stripping twice *)

Lemma rstrip_by_idem (p : ascii -> bool) (s : string) :
  rstrip_by p (rstrip_by p s) = rstrip_by p s.
Proof.
  induction s as [|c s IH]; simpl; [reflexivity|].
  destruct (rstrip_by p s) as [|d r] eqn:E.
  - destruct (p c) eqn:Hc; simpl; [reflexivity|]. now rewrite Hc.
  - change (rstrip_by p (String c (String d r)))
      with (match rstrip_by p (String d r) with
            | EmptyString => if p c then EmptyString else String c EmptyString
            | String d' r' => String c (String d' r')
            end).
    now rewrite IH.
Qed.

Lemma rstrip_by_head (p : ascii -> bool) (c : ascii) (s : string) :
  p c = false -> exists r, rstrip_by p (String c s) = String c r.
Proof.
  intros Hc. simpl. destruct (rstrip_by p s) as [|d r].
  - rewrite Hc. now exists EmptyString.
  - now exists (String d r).
Qed.

Lemma lstrip_by_cases (p : ascii -> bool) (s : string) :
  lstrip_by p s = EmptyString \/
  exists c r, lstrip_by p s = String c r /\ p c = false.
Proof.
  induction s as [|c s IH]; simpl; [now left|].
  destruct (p c) eqn:Hc; [exact IH|].
  right. now exists c, s.
Qed.

Lemma strip_idem (s : string) : strip (strip s) = strip s.
Proof.
  unfold strip.
  destruct (lstrip_by_cases is_space s) as [E|[c [r [E Hc]]]]; rewrite E.
  - reflexivity.
  - destruct (rstrip_by_head is_space c r Hc) as [r' Er]. rewrite Er.
    simpl. rewrite Hc. rewrite <- Er. apply rstrip_by_idem.
Qed.

(** ** Prefixes and suffixes *)

Lemma take_until_nth {A : Type} (p : A -> bool) (l : list A) (k : nat)
    (x : A) :
  nth_error (take_until p l) k = Some x ->
  nth_error l k = Some x /\ p x = false.
Proof.
  revert k. induction l as [|a l IH]; intros k; simpl.
  - now destruct k.
  - destruct (p a) eqn:Ha; [now destruct k|].
    destruct k as [|k]; simpl.
    + intros [= <-]. now split.
    + apply IH.
Qed.

Lemma take_until_stop {A : Type} (p : A -> bool) (l : list A) (y : A) :
  nth_error l (List.length (take_until p l)) = Some y -> p y = true.
Proof.
  induction l as [|a l IH]; simpl; [discriminate|].
  destruct (p a) eqn:Ha; simpl.
  - now intros [= <-].
  - exact IH.
Qed.

Lemma take_until_length {A : Type} (p : A -> bool) (l : list A) :
  (List.length (take_until p l) <= List.length l)%nat.
Proof.
  induction l as [|a l IH]; simpl; [lia|].
  destruct (p a); simpl; lia.
Qed.

Lemma skipn_In {A : Type} (n : nat) (l : list A) (x : A) :
  In x (skipn n l) -> In x l.
Proof.
  revert l. induction n as [|n IH]; intros l; simpl; [tauto|].
  destruct l as [|a l]; [tauto|]. intros H. right. now apply IH.
Qed.

Lemma fold_left_nothing {A B : Type} (f : A -> B -> A) (l : list B)
    (a : A) :
  (forall x b, In b l -> f x b = x) -> fold_left f l a = a.
Proof.
  revert a. induction l as [|b l IH]; intros a H; simpl; [reflexivity|].
  rewrite (H a b (or_introl eq_refl)). apply IH.
  intros x b' Hb. apply H. now right.
Qed.

Section Further.

Variable float_of_str : string -> option float.
Variable str_of_float : float -> string.

Hypothesis float_text : forall f, numeric_text (str_of_float f) = true.

(** ** Names going out and coming in *)

(** X1. On a loaded frame [list_tables] does not fail; every name it
    returns is one of the eight headers, and there are no more names than
    rows. *)
Theorem list_tables_only_headers (df : DataFrame) :
  loaded_frame df = true ->
  exists tables,
    list_tables str_of_float (Some df) = Ok tables /\
    Forall (fun n => In n headers) tables /\
    (List.length tables <= List.length (rows df))%nat.
Proof.
  intros H. exists (table_labels str_of_float df).
  split; [apply (list_tables_run str_of_float df H)|].
  unfold table_labels, column0. split.
  - apply Forall_forall. intros n Hn.
    apply in_map_iff in Hn as [v [<- Hv]].
    apply filter_In in Hv as [_ Hl].
    destruct v as [|z|f|s]; try discriminate.
    now apply str_in_In.
  - rewrite length_map.
    etransitivity; [apply filter_length_le|]. now rewrite length_map.
Qed.

(** X2. The names [get_table_details] returns are those of the rows
    right below the header, one after the other: the k-th name is the
    trimmed column-0 value of row [h + 1 + k]; in none of these rows is
    that value [None], a string of white space or a header, and in the
    row after the last one, when the frame has it, it is one of these. A
    NaN does not end the list. *)
Theorem row_names_contiguous (df : DataFrame) (table_name : string)
    (h : nat) (td : TableDetails) :
  loaded_frame df = true ->
  first_index (names_table table_name) (column0 df) = Some h ->
  get_table_details str_of_float (Some df) table_name = Ok td ->
  (forall k n,
     nth_error (row_names td) k = Some n ->
     exists v,
       nth_error (column0 df) (S h + k) = Some v /\
       ends_list v = false /\ trimmed str_of_float v = n) /\
  (forall v,
     nth_error (column0 df) (S h + List.length (row_names td)) = Some v ->
     ends_list v = true) /\
  (h + List.length (row_names td) < List.length (rows df))%nat.
Proof.
  intros H Hh. rewrite (get_table_details_run str_of_float df table_name H).
  rewrite Hh. set (below := skipn (S h) (column0 df)).
  intros [= <-]. cbn [row_names].
  repeat split.
  - intros k n Hn. rewrite nth_error_map in Hn.
    destruct (nth_error (take_until _ _) k) as [v|] eqn:Ev; [|discriminate].
    injection Hn as <-.
    apply take_until_nth in Ev as [Ev Hs].
    unfold below in Ev. rewrite nth_error_skipn in Ev. exists v.
    split; [exact Ev|]. split; [|reflexivity].
    now rewrite <- (stops_ends_list str_of_float float_text).
  - intros v Hv. rewrite length_map in Hv.
    rewrite <- nth_error_skipn in Hv. fold below in Hv.
    apply take_until_stop in Hv.
    now rewrite <- (stops_ends_list str_of_float float_text).
  - rewrite length_map.
    pose proof (take_until_length (stops str_of_float) below) as Hl.
    unfold below in Hl at 2. rewrite length_skipn in Hl.
    apply first_index_some in Hh as [[x [Hx _]] _].
    assert (Hlt : (h < List.length (column0 df))%nat)
      by (apply nth_error_Some; congruence).
    unfold column0 in Hl, Hlt. rewrite length_map in Hl, Hlt. lia.
Qed.

(** X3. [get_table_details] trims the cells and not the argument: when it
    succeeds, the table name is its own [strip()] and is the trimmed
    value of a string of column 0, and so is every row name its own
    [strip()]. A table name with white space around it is not found. *)
Theorem found_names_are_trimmed (df : DataFrame) (table_name : string)
    (td : TableDetails) :
  loaded_frame df = true ->
  get_table_details str_of_float (Some df) table_name = Ok td ->
  strip table_name = table_name /\
  (exists s, In (CStr s) (column0 df) /\ strip s = table_name) /\
  Forall (fun n => strip n = n) (row_names td).
Proof.
  intros H. rewrite (get_table_details_run str_of_float df table_name H).
  destruct (first_index _ _) as [h|] eqn:Eh; [|discriminate].
  intros [= <-]. cbn [row_names].
  apply first_index_some in Eh as [[v [Hv Hm]] _].
  destruct v as [|z|f|s]; try discriminate. simpl in Hm.
  apply String.eqb_eq in Hm.
  repeat split.
  - rewrite <- Hm. apply strip_idem.
  - exists s. split; [exact (nth_error_In _ _ Hv)|exact Hm].
  - apply Forall_forall. intros n Hn.
    apply in_map_iff in Hn as [w [<- _]]. apply strip_idem.
Qed.

(** Where column 0 holds no NaN, [get_table_details] lists a table as
    the specification words it: with no row whose trimmed column-0 string
    is the table name it raises the 404 [Table '<name>' not found]; with
    the first one at [h] it returns the trimmed column-0 strings of the
    rows after [h] up to, and without, the first row that is blank or a
    header label, or up to the end of the frame. *)
Lemma listed_rows_without_nan (df : DataFrame) (table_name : string) :
  loaded_frame df = true ->
  (forall f, In (CFloat f) (column0 df) -> PrimFloat.is_nan f = false) ->
  (first_index (names_table table_name) (column0 df) = None ->
   get_table_details str_of_float (Some df) table_name =
   Raise (HTTPException 404 ("Table '" ++ table_name ++ "' not found")))
  /\
  (forall h,
     first_index (names_table table_name) (column0 df) = Some h ->
     get_table_details str_of_float (Some df) table_name =
     Ok (mkTableDetails table_name
           (map (trimmed str_of_float)
              (take_until is_boundary (skipn (S h) (column0 df)))))).
Proof.
  intros H Hnan.
  rewrite (get_table_details_run str_of_float df table_name H).
  split.
  - now intros ->.
  - intros h ->. do 3 f_equal. apply take_until_ext. intros v Hv.
    rewrite (stops_ends_list str_of_float float_text).
    apply ends_list_boundary. intros f ->.
    apply Hnan. exact (skipn_In _ _ _ Hv).
Qed.

(** ** rowSum on a loaded frame *)

Lemma locate_row_run (df : DataFrame) (table_name row_name : string) :
  loaded_frame df = true ->
  locate_row str_of_float df table_name row_name =
  match first_index (names_table table_name) (column0 df) with
  | None => table_not_found table_name
  | Some h =>
      if str_in row_name
           (map (trimmed str_of_float)
              (take_until (stops str_of_float) (skipn (S h) (column0 df))))
      then
        match first_index (name_matches str_of_float row_name)
                (column0 df) with
        | None => row_not_in_data row_name
        | Some i => Ok i
        end
      else row_not_in_table row_name table_name
  end.
Proof.
  intros H. unfold locate_row.
  rewrite (get_table_details_run str_of_float df table_name H).
  destruct (first_index (names_table table_name) (column0 df)) as [h|];
    [|reflexivity].
  cbn [bind row_names].
  destruct (str_in row_name _); cbn [negb]; [|reflexivity].
  rewrite find_target_run
    by (intros row Hin; exact (proj1 (loaded_getitem0 df row H Hin))).
  fold (column0 df). cbn [bind].
  now destruct (first_index _ _).
Qed.

Lemma initial_investment_sum_run (df : DataFrame) (target_row : nat)
    (v : cell) :
  iloc df target_row 2 = Ok v -> cell_ok v = true ->
  initial_investment_sum float_of_str df target_row =
  Ok (single_cell_sum float_of_str v).
Proof.
  intros Hv Hok. unfold initial_investment_sum, single_cell_sum.
  rewrite Hv. cbn [bind]. destruct (isna v) eqn:Hna.
  - now rewrite (isna_contribution float_of_str v Hna).
  - rewrite (cell_value_run float_of_str v Hok Hna).
    now destruct (contribution float_of_str v).
Qed.

Lemma all_columns_sum_run (df : DataFrame) (target_row : nat)
    (row : list cell) :
  loaded_frame df = true ->
  nth_error (rows df) target_row = Some row ->
  sum_columns float_of_str df target_row (seq 0 (columns df - 0)) 0%float =
  Ok (fold_left (add_cell float_of_str) row 0%float).
Proof.
  intros H Hrow.
  destruct (loaded_row df row H (nth_error_In _ _ Hrow)) as (Hl & _ & Hok).
  rewrite Nat.sub_0_r, <- Hl.
  apply (sum_columns_run float_of_str df target_row row Hrow Hok
           row 0%nat 0%float eq_refl).
  simpl. lia.
Qed.

Lemma loaded_iloc (df : DataFrame) (i c : nat) (row : list cell) :
  loaded_frame df = true ->
  nth_error (rows df) i = Some row -> (c < columns df)%nat ->
  exists v, iloc df i c = Ok v /\ cell_ok v = true.
Proof.
  intros H Hrow Hc.
  destruct (loaded_row df row H (nth_error_In _ _ Hrow)) as (Hl & _ & Hok).
  destruct (nth_error row c) as [v|] eqn:Ev.
  - exists v. split.
    + unfold iloc. destruct (Nat.leb_spec (columns df) c); [lia|].
      now rewrite Hrow, Ev.
    + apply (proj1 (forallb_forall _ _) Hok v (nth_error_In _ _ Ev)).
  - apply nth_error_None in Ev. lia.
Qed.

(** The second half of [calculate_row_sum] does not fail on a located
    row, unless the table is [INITIAL INVESTMENT] and column 2 is
    missing. *)
Lemma sum_of_located_row (df : DataFrame) (table_name : string)
    (i : nat) (row : list cell) :
  loaded_frame df = true ->
  nth_error (rows df) i = Some row ->
  table_name <> "INITIAL INVESTMENT" \/ (3 <= columns df)%nat ->
  exists s,
    (if (table_name =? "INITIAL INVESTMENT")%string
     then initial_investment_sum float_of_str df i
     else sum_columns float_of_str df i (seq 0 (columns df - 0)) 0%float)
    = Ok s.
Proof.
  intros H Hrow Hc.
  destruct (String.eqb_spec table_name "INITIAL INVESTMENT") as [E|E].
  - destruct Hc as [Hc|Hc]; [contradiction|].
    destruct (loaded_iloc df i 2 row H Hrow ltac:(lia)) as [v [Hv Hok]].
    eexists. apply (initial_investment_sum_run df i v Hv Hok).
  - eexists. apply (all_columns_sum_run df i row H Hrow).
Qed.

Lemma located_row_exists (df : DataFrame) (row_name : string) (i : nat) :
  first_index (name_matches str_of_float row_name) (column0 df) = Some i ->
  exists v row,
    nth_error (column0 df) i = Some v /\
    nth_error (rows df) i = Some row /\
    truthy v = true /\ trimmed str_of_float v = row_name.
Proof.
  intros Hi. apply first_index_some in Hi as [[v [Hv Hm]] _].
  destruct (column0_row df i v Hv) as [row [Hrow _]].
  exists v, row. repeat split; try assumption.
  - unfold name_matches, current_row_name in Hm. now destruct (truthy v).
  - unfold name_matches, current_row_name in Hm.
    destruct (truthy v); [|discriminate]. now apply String.eqb_eq in Hm.
Qed.

(** X4. On a loaded frame, for a table other than [INITIAL INVESTMENT]
    or with at least three columns, [calculate_row_sum] returns a sum for
    the names it was given, or fails with one of its three 404 errors:
    nothing else. *)
Theorem row_sum_returns_or_404 (df : DataFrame)
    (table_name row_name : string) :
  loaded_frame df = true ->
  table_name <> "INITIAL INVESTMENT" \/ (3 <= columns df)%nat ->
  let r := calculate_row_sum float_of_str str_of_float (Some df)
             table_name row_name in
  (exists s, r = Ok (mkRowSum table_name row_name s)) \/
  r = Raise (HTTPException 404 ("Table '" ++ table_name ++ "' not found")) \/
  r = Raise (HTTPException 404
               ("Row '" ++ row_name ++ "' not found in table '"
                ++ table_name ++ "'")) \/
  r = Raise (HTTPException 404
               ("Row '" ++ row_name ++ "' not found in Excel data")).
Proof.
  intros H Hc r. subst r. unfold calculate_row_sum.
  rewrite (locate_row_run df table_name row_name H).
  destruct (first_index (names_table table_name) (column0 df)) as [h|];
    [|right; now left].
  destruct (str_in row_name _); [|right; right; now left].
  destruct (first_index (name_matches str_of_float row_name) (column0 df))
    as [i|] eqn:Ei; [|right; right; now right].
  left. cbn [bind].
  destruct (located_row_exists df row_name i Ei) as (v & row & _ & Hrow & _).
  destruct (sum_of_located_row df table_name i row H Hrow Hc) as [s Hs].
  exists s. cbv zeta. now rewrite Hs.
Qed.

(** X5. On a loaded frame whose row labels are all true in Python's
    sense (no numeric zero in column 0), every name [get_table_details]
    returns for a table gets a sum from [calculate_row_sum] for that
    table, provided the table is not [INITIAL INVESTMENT] or the frame has
    three columns. *)
Theorem listed_rows_have_sums (df : DataFrame)
    (table_name row_name : string) (td : TableDetails) :
  loaded_frame df = true ->
  (forall v, In v (column0 df) -> v <> CNone -> truthy v = true) ->
  table_name <> "INITIAL INVESTMENT" \/ (3 <= columns df)%nat ->
  get_table_details str_of_float (Some df) table_name = Ok td ->
  In row_name (row_names td) ->
  exists s,
    calculate_row_sum float_of_str str_of_float (Some df)
      table_name row_name = Ok (mkRowSum table_name row_name s).
Proof.
  intros H Ht Hc Htd Hin. unfold calculate_row_sum.
  rewrite (locate_row_run df table_name row_name H).
  rewrite (get_table_details_run str_of_float df table_name H) in Htd.
  destruct (first_index (names_table table_name) (column0 df)) as [h|];
    [|discriminate].
  set (below := skipn (S h) (column0 df)) in *.
  injection Htd as <-. cbn [row_names] in Hin.
  rewrite (proj2 (str_in_In _ _) Hin).
  apply in_map_iff in Hin as [v [Hv Hin]].
  apply take_until_incl in Hin as [Hin Hs].
  apply skipn_In in Hin.
  assert (Hn : name_matches str_of_float row_name v = true).
  { unfold name_matches, current_row_name. rewrite Ht; [|exact Hin|].
    - rewrite <- Hv. apply String.eqb_refl.
    - intros ->. discriminate Hs. }
  destruct (first_index (name_matches str_of_float row_name) (column0 df))
    as [i|] eqn:Ei.
  - cbn [bind].
    destruct (located_row_exists df row_name i Ei)
      as (w & row & _ & Hrow & _).
    destruct (sum_of_located_row df table_name i row H Hrow Hc) as [s Hs'].
    exists s. cbv zeta. now rewrite Hs'.
  - pose proof (proj1 (first_index_none _ _) Ei v Hin). congruence.
Qed.

(** X6. The row [calculate_row_sum] locates is a row of the frame whose
    column-0 value is not [None], not a string of white space and not a
    header: a header row is never summed. *)
Theorem located_row_is_a_data_row (df : DataFrame)
    (table_name row_name : string) (i : nat) :
  loaded_frame df = true ->
  locate_row str_of_float df table_name row_name = Ok i ->
  (i < List.length (rows df))%nat /\
  exists v, nth_error (column0 df) i = Some v /\ ends_list v = false.
Proof.
  intros H. rewrite (locate_row_run df table_name row_name H).
  destruct (first_index (names_table table_name) (column0 df)) as [h|];
    [|discriminate].
  destruct (str_in row_name _) eqn:Ein; [|discriminate].
  destruct (first_index (name_matches str_of_float row_name) (column0 df))
    as [k|] eqn:Ek; [|discriminate].
  intros [= <-].
  destruct (located_row_exists df row_name k Ek)
    as (v & row & Hv & Hrow & Htr & Hname).
  split; [apply nth_error_Some; congruence|].
  exists v. split; [exact Hv|].
  apply str_in_In in Ein. apply in_map_iff in Ein as [w [Hw Hin]].
  apply take_until_incl in Hin as [_ Hs].
  destruct (kept_name str_of_float float_text w Hs) as [Hne Hh].
  rewrite Hw in Hne, Hh. unfold trimmed in Hname.
  unfold ends_list.
  destruct v as [|z|f|s]; simpl in *; try reflexivity; try discriminate.
  rewrite Hname, Hh. apply String.eqb_neq in Hne. now rewrite Hne.
Qed.

(** X7. For a table other than [INITIAL INVESTMENT], a located row none
    of whose cells adds anything (each is absent or fails to parse) has
    the sum 0. *)
Theorem unparsable_row_sums_to_zero (df : DataFrame)
    (table_name row_name : string) (i : nat) (row : list cell) :
  loaded_frame df = true ->
  table_name <> "INITIAL INVESTMENT" ->
  locate_row str_of_float df table_name row_name = Ok i ->
  nth_error (rows df) i = Some row ->
  (forall v, In v row -> contribution float_of_str v = None) ->
  calculate_row_sum float_of_str str_of_float (Some df)
    table_name row_name = Ok (mkRowSum table_name row_name 0%float).
Proof.
  intros H Hne Hloc Hrow Hnone. unfold calculate_row_sum.
  rewrite Hloc. cbn [bind]. cbv zeta.
  apply String.eqb_neq in Hne. rewrite Hne.
  rewrite (all_columns_sum_run df i row H Hrow). cbn [bind].
  rewrite fold_left_nothing; [reflexivity|].
  intros x v Hv. unfold add_cell. now rewrite (Hnone v Hv).
Qed.

(** ** Exceptions on any frame *)

Lemma iloc_raises (df : DataFrame) (r c : nat) (e : exn) :
  iloc df r c = Raise e -> e = IndexError.
Proof.
  unfold iloc. destruct (columns df <=? c)%nat; [congruence|].
  destruct (nth_error (rows df) r) as [row|]; [|congruence].
  destruct (nth_error row c); [discriminate|congruence].
Qed.

Lemma getitem0_raises (row : list cell) (e : exn) :
  getitem0 row = Raise e -> e = KeyError.
Proof. destruct row; simpl; [congruence|discriminate]. Qed.

Lemma list_tables_loop_raises (rs : list (list cell))
    (tables : list string) (e : exn) :
  list_tables_loop str_of_float rs tables = Raise e -> e = KeyError.
Proof.
  revert tables. induction rs as [|row rs IH]; intros tables; simpl.
  - discriminate.
  - destruct (getitem0 row) as [v|e'] eqn:Eg; cbn [bind].
    + destruct (is_table_row v); apply IH.
    + intros [= <-]. exact (getitem0_raises row e' Eg).
Qed.

Lemma find_header_raises (rs : list (list cell)) (table_name : string)
    (idx : nat) (e : exn) :
  find_header rs table_name idx = Raise e -> e = KeyError.
Proof.
  revert idx. induction rs as [|row rs IH]; intros idx; simpl.
  - discriminate.
  - destruct (getitem0 row) as [v|e'] eqn:Eg; cbn [bind].
    + destruct (is_header_of table_name v); [discriminate|apply IH].
    + intros [= <-]. exact (getitem0_raises row e' Eg).
Qed.

Lemma find_target_raises (rs : list (list cell)) (row_name : string)
    (idx : nat) (e : exn) :
  find_target str_of_float rs row_name idx = Raise e -> e = KeyError.
Proof.
  revert idx. induction rs as [|row rs IH]; intros idx; simpl.
  - discriminate.
  - destruct (getitem0 row) as [v|e'] eqn:Eg; cbn [bind].
    + destruct (name_matches str_of_float row_name v);
        [discriminate|apply IH].
    + intros [= <-]. exact (getitem0_raises row e' Eg).
Qed.

Lemma collect_rows_raises (df : DataFrame) (rs : list (list cell))
    (current_row : nat) (names : list string) (e : exn) :
  collect_rows str_of_float df rs current_row names = Raise e ->
  e = IndexError.
Proof.
  revert current_row names.
  induction rs as [|row rs IH]; intros k names; simpl.
  - discriminate.
  - destruct (iloc df k 0) as [v|e'] eqn:Ei; cbn [bind].
    + destruct (is_empty_name str_of_float v); [discriminate|].
      destruct (is_next_table v); [discriminate|apply IH].
    + intros [= <-]. exact (iloc_raises df k 0 e' Ei).
Qed.

Lemma get_table_details_raises (df : DataFrame) (table_name : string)
    (e : exn) :
  get_table_details str_of_float (Some df) table_name = Raise e ->
  e = HTTPException 404 ("Table '" ++ table_name ++ "' not found") \/
  e = KeyError \/ e = IndexError.
Proof.
  unfold get_table_details.
  destruct (find_header (rows df) table_name 0) as [[h|]|e'] eqn:Eh;
    cbn [bind].
  - destruct (collect_rows _ _ _ _ _) as [names|e''] eqn:Ec; cbn [bind];
      [discriminate|].
    intros [= <-]. right. right. exact (collect_rows_raises _ _ _ _ _ Ec).
  - intros [= <-]. now left.
  - intros [= <-]. right. left. exact (find_header_raises _ _ _ _ Eh).
Qed.

Lemma cell_value_raises (v : cell) (e : exn) :
  cell_value float_of_str v = Raise e ->
  e = ValueError \/ e = TypeError \/ e = OverflowError.
Proof.
  destruct v as [|z|f|s]; simpl.
  - intros [= <-]. tauto.
  - unfold float_of_int. destruct (is_infinite _); [|discriminate].
    intros [= <-]. tauto.
  - discriminate.
  - destruct (has_percent s).
    + destruct (float_of_str (strip_percent s)); [discriminate|].
      intros [= <-]. tauto.
    + destruct (float_of_str s); [discriminate|]. intros [= <-]. tauto.
Qed.

Lemma initial_investment_sum_raises (df : DataFrame) (i : nat) (e : exn) :
  initial_investment_sum float_of_str df i = Raise e ->
  e = IndexError \/ e = OverflowError.
Proof.
  unfold initial_investment_sum.
  destruct (iloc df i 2) as [v|e'] eqn:Ei; cbn [bind].
  - destruct (isna v); [discriminate|].
    destruct (cell_value float_of_str v) as [x|e'] eqn:Ec;
      [discriminate|].
    destruct (cell_value_raises v e' Ec) as [ -> | [ -> | -> ] ]; simpl;
      try discriminate.
    intros [= <-]. now right.
  - rewrite (iloc_raises df i 2 e' Ei). simpl. intros [= <-]. now left.
Qed.

Lemma add_column_raises (df : DataFrame) (i col : nat) (acc : float)
    (e : exn) :
  add_column float_of_str df i acc col = Raise e ->
  e = IndexError \/ e = OverflowError.
Proof.
  unfold add_column.
  destruct (iloc df i col) as [v|e'] eqn:Ei; cbn [bind].
  - destruct (isna v); cbn [negb]; [discriminate|].
    destruct (cell_value float_of_str v) as [x|e'] eqn:Ec;
      [discriminate|].
    destruct (cell_value_raises v e' Ec) as [ -> | [ -> | -> ] ]; simpl;
      try discriminate.
    intros [= <-]. now right.
  - rewrite (iloc_raises df i col e' Ei). simpl. intros [= <-]. now left.
Qed.

Lemma sum_columns_raises (df : DataFrame) (i : nat) (cols : list nat)
    (acc : float) (e : exn) :
  sum_columns float_of_str df i cols acc = Raise e ->
  e = IndexError \/ e = OverflowError.
Proof.
  revert acc. induction cols as [|col cols IH]; intros acc; simpl.
  - discriminate.
  - destruct (add_column float_of_str df i acc col) as [s|e'] eqn:Ea;
      cbn [bind].
    + apply IH.
    + intros [= <-]. exact (add_column_raises df i col acc e' Ea).
Qed.

Lemma row_sum_raises (df : DataFrame) (table_name row_name : string)
    (e : exn) :
  calculate_row_sum float_of_str str_of_float (Some df)
    table_name row_name = Raise e ->
  e = HTTPException 404 ("Table '" ++ table_name ++ "' not found") \/
  e = HTTPException 404
        ("Row '" ++ row_name ++ "' not found in table '"
         ++ table_name ++ "'") \/
  e = HTTPException 404
        ("Row '" ++ row_name ++ "' not found in Excel data") \/
  e = KeyError \/ e = IndexError \/ e = OverflowError.
Proof.
  unfold calculate_row_sum, locate_row.
  destruct (get_table_details str_of_float (Some df) table_name)
    as [td|e'] eqn:Etd; cbn [bind].
  - destruct (str_in row_name (row_names td)); cbn [negb bind].
    + destruct (find_target str_of_float (rows df) row_name 0)
        as [[i|]|e'] eqn:Ef; cbn [bind].
      * cbv zeta.
        destruct (table_name =? "INITIAL INVESTMENT")%string.
        -- destruct (initial_investment_sum float_of_str df i)
             as [s|e'] eqn:Es; cbn [bind]; [discriminate|].
           intros [= <-].
           destruct (initial_investment_sum_raises df i e' Es); tauto.
        -- destruct (sum_columns float_of_str df i _ _)
             as [s|e'] eqn:Es; cbn [bind]; [discriminate|].
           intros [= <-].
           destruct (sum_columns_raises df i _ _ e' Es); tauto.
      * intros [= <-]. tauto.
      * intros [= <-]. rewrite (find_target_raises _ _ _ _ Ef). tauto.
    + intros [= <-]. tauto.
  - intros [= <-].
    destruct (get_table_details_raises df table_name e' Etd)
      as [ -> | [ -> | -> ] ]; tauto.
Qed.

(** X8. Whatever the frame, an exception that leaves
    [calculate_row_sum] on loaded data is one of its three 404 errors, or
    the [KeyError], [IndexError] or [OverflowError] of a cell access or
    conversion: the [ValueError] and [TypeError] of a cell never escape,
    and no error of status 500 is raised. *)
Theorem row_sum_exceptions (df : DataFrame) (table_name row_name : string)
    (e : exn) :
  calculate_row_sum float_of_str str_of_float (Some df)
    table_name row_name = Raise e ->
  (e = HTTPException 404 ("Table '" ++ table_name ++ "' not found") \/
   e = HTTPException 404
         ("Row '" ++ row_name ++ "' not found in table '"
          ++ table_name ++ "'") \/
   e = HTTPException 404
         ("Row '" ++ row_name ++ "' not found in Excel data") \/
   e = KeyError \/ e = IndexError \/ e = OverflowError) /\
  e <> ValueError /\ e <> TypeError /\
  (forall detail, e <> HTTPException 500 detail).
Proof.
  intros H. pose proof (row_sum_raises df table_name row_name e H) as He.
  split; [exact He|].
  repeat split; intros; intros ->;
    repeat (destruct He as [He|He]; try discriminate He).
Qed.

(** X9. Each of the three endpoints raises the 500
    [Excel data not loaded] exactly when [excel_data] is [None]. *)
Theorem not_loaded_iff_none (excel_data : option DataFrame)
    (table_name row_name : string) :
  (list_tables str_of_float excel_data = not_loaded <->
   excel_data = None) /\
  (get_table_details str_of_float excel_data table_name = not_loaded <->
   excel_data = None) /\
  (calculate_row_sum float_of_str str_of_float excel_data
     table_name row_name = not_loaded <->
   excel_data = None).
Proof.
  destruct excel_data as [df|].
  - repeat split; try discriminate; unfold not_loaded; intros E; exfalso.
    + apply list_tables_loop_raises in E. discriminate.
    + apply get_table_details_raises in E as [E|[E|E]]; discriminate.
    + apply row_sum_raises in E.
      repeat (destruct E as [E|E]; try discriminate E).
  - repeat split; reflexivity.
Qed.

End Further.

(** * Closed instances of the further properties *)

Lemma list_tables_only_headers_witness :
  exists tables,
    list_tables special_str_of_float (Some frame_two_tables) = Ok tables /\
    Forall (fun n => In n headers) tables /\
    (List.length tables <= List.length (rows frame_two_tables))%nat.
Proof.
  exact (list_tables_only_headers special_str_of_float
           frame_two_tables eq_refl).
Defined.

Lemma row_names_contiguous_witness :
  (forall k n,
     nth_error ["Revenue"; "Rate"] k = Some n ->
     exists v,
       nth_error (column0 frame_two_tables) (2 + k) = Some v /\
       ends_list v = false /\ trimmed special_str_of_float v = n) /\
  (forall v,
     nth_error (column0 frame_two_tables) 4 = Some v ->
     ends_list v = true) /\
  (1 + 2 < List.length (rows frame_two_tables))%nat.
Proof.
  exact (row_names_contiguous special_str_of_float special_text
           frame_two_tables "CASHFLOW DETAILS" 1%nat
           (mkTableDetails "CASHFLOW DETAILS" ["Revenue"; "Rate"])
           eq_refl eq_refl eq_refl).
Defined.

Lemma found_names_are_trimmed_witness :
  strip "CASHFLOW DETAILS" = "CASHFLOW DETAILS" /\
  (exists s,
     In (CStr s) (column0 frame_two_tables) /\
     strip s = "CASHFLOW DETAILS") /\
  Forall (fun n => strip n = n) ["Revenue"; "Rate"].
Proof.
  exact (found_names_are_trimmed special_str_of_float
           frame_two_tables "CASHFLOW DETAILS"
           (mkTableDetails "CASHFLOW DETAILS" ["Revenue"; "Rate"])
           eq_refl eq_refl).
Defined.

Lemma row_sum_returns_or_404_witness :
  let r := calculate_row_sum decimal_float_of_str special_str_of_float
             (Some frame_two_tables) "CASHFLOW DETAILS" "Rate" in
  (exists s, r = Ok (mkRowSum "CASHFLOW DETAILS" "Rate" s)) \/
  r = Raise (HTTPException 404 "Table 'CASHFLOW DETAILS' not found") \/
  r = Raise (HTTPException 404
               "Row 'Rate' not found in table 'CASHFLOW DETAILS'") \/
  r = Raise (HTTPException 404 "Row 'Rate' not found in Excel data").
Proof.
  apply (row_sum_returns_or_404 decimal_float_of_str special_str_of_float
           frame_two_tables "CASHFLOW DETAILS" "Rate");
    [reflexivity|left; discriminate].
Defined.

Lemma listed_rows_have_sums_witness :
  exists s,
    calculate_row_sum decimal_float_of_str special_str_of_float
      (Some frame_two_tables) "CASHFLOW DETAILS" "Rate" =
    Ok (mkRowSum "CASHFLOW DETAILS" "Rate" s).
Proof.
  apply (listed_rows_have_sums decimal_float_of_str special_str_of_float
           frame_two_tables "CASHFLOW DETAILS" "Rate"
           (mkTableDetails "CASHFLOW DETAILS" ["Revenue"; "Rate"]));
    [reflexivity| |left; discriminate|reflexivity|simpl; tauto].
  intros v Hin Hne. simpl in Hin.
  repeat (destruct Hin as [<-|Hin]; [try reflexivity; congruence|]).
  contradiction.
Defined.

Lemma located_row_is_a_data_row_witness :
  (2 < List.length (rows frame_two_tables))%nat /\
  exists v,
    nth_error (column0 frame_two_tables) 2 = Some v /\
    ends_list v = false.
Proof.
  exact (located_row_is_a_data_row special_str_of_float special_text
           frame_two_tables "DISCOUNT RATE" "Revenue" 2%nat
           eq_refl eq_refl).
Defined.

Lemma unparsable_row_sums_to_zero_witness :
  calculate_row_sum decimal_float_of_str special_str_of_float
    (Some frame_notes) "GROWTH RATES" "Comment" =
  Ok (mkRowSum "GROWTH RATES" "Comment" 0%float).
Proof.
  apply (unparsable_row_sums_to_zero
           decimal_float_of_str special_str_of_float
           frame_notes "GROWTH RATES" "Comment" 1%nat
           [CStr "Comment"; CStr "n/a"; CNone]);
    [reflexivity|discriminate|reflexivity|reflexivity|].
  intros v Hin. simpl in Hin.
  repeat (destruct Hin as [<-|Hin]; [reflexivity|]).
  contradiction.
Defined.

Lemma row_sum_exceptions_witness :
  (IndexError = HTTPException 404 "Table 'INITIAL INVESTMENT' not found" \/
   IndexError =
   HTTPException 404
     "Row 'Cost' not found in table 'INITIAL INVESTMENT'" \/
   IndexError = HTTPException 404 "Row 'Cost' not found in Excel data" \/
   IndexError = KeyError \/ IndexError = IndexError \/
   IndexError = OverflowError) /\
  IndexError <> ValueError /\ IndexError <> TypeError /\
  (forall detail, IndexError <> HTTPException 500 detail).
Proof.
  exact (row_sum_exceptions decimal_float_of_str special_str_of_float
           frame_narrow "INITIAL INVESTMENT" "Cost" IndexError eq_refl).
Defined.

(** C4. The loop of [get_table_details] is meant to stop at an empty
    row, and misses one whose absent marker is NaN: [nan is None] is
    false and [str(nan).strip()] is not empty. On [frame_blank_nan] row 2
    is blank, so that the rows of [CASHFLOW DETAILS] are [Revenue] alone;
    the call lists the blank row as ["nan"] and goes on to the row below
    it. *)
Lemma blank_nan_row_is_listed :
  loaded_frame frame_blank_nan = true /\
  (exists v,
     nth_error (column0 frame_blank_nan) 2 = Some v /\
     isna v = true /\ is_blank v = true) /\
  table_rows special_str_of_float frame_blank_nan "CASHFLOW DETAILS"
  = Some ["Revenue"] /\
  get_table_details special_str_of_float (Some frame_blank_nan)
    "CASHFLOW DETAILS"
  = Ok (mkTableDetails "CASHFLOW DETAILS" ["Revenue"; "nan"; "Tax"]).
Proof.
  repeat split.
  exists (CFloat nan). repeat split.
Qed.
